(** * Conversation compaction: the context manager and the marker renderer

    A shallow embedding of
      ui/desktop/src/components/context_management/ContextManager.tsx
      ui/desktop/src/components/context_management/CompactionMarker.tsx
    The asynchronous [performCompaction] is embedded as a finite program
    tree over the effects the TypeScript body performs (React state
    setters, the caller's callbacks, [Date.now], [console.error],
    [setTimeout]) with one suspension point, the awaited call to
    [manageContextFromBackend]. *)

From Stdlib Require Import List String ZArith Lia.
From Stdlib Require Import DecimalString DecimalZ DecimalFacts.
Import ListNotations.
Open Scope string_scope.
Open Scope Z_scope.

Set Implicit Arguments.
Set Warnings "-register-all".

(** ** Messages (types/message) *)

(** Modelled from the spec: the declarations of [types/message] are not
    among the sources.  A message has an identifier, a role, a creation
    time in seconds, an ordered sequence of content blocks, and the two
    flags [display] and [sendToLLM] (section 3); the fields are named as
    the two components use them. *)
Inductive Role : Type := user | assistant.

(** Modelled from the spec: the content union of [types/message].  Only
    the [text] and [compactionMarker] variants are inspected by the code;
    every other variant of the wider union is carried along untouched and
    is represented by [OtherContent], whose [type] tag is neither ['text']
    nor ['compactionMarker']. *)
Inductive MessageContent : Type :=
| TextContent (text : string)
| CompactionMarkerContent (msg : string)
| OtherContent (payload : string).

Inductive ContentType : Type := type_text | type_compactionMarker | type_other.

Definition type (c : MessageContent) : ContentType :=
  match c with
  | TextContent _ => type_text
  | CompactionMarkerContent _ => type_compactionMarker
  | OtherContent _ => type_other
  end.

Definition ContentType_eqb (a b : ContentType) : bool :=
  match a, b with
  | type_text, type_text => true
  | type_compactionMarker, type_compactionMarker => true
  | type_other, type_other => true
  | _, _ => false
  end.

(** Modelled from the spec: the [Message] interface of [types/message]. *)
Record Message : Type := mkMessage {
  id : string;
  role : Role;
  created : Z;
  content : list MessageContent;
  display : bool;
  sendToLLM : bool
}.

(** [{ ...m, content: c }] *)
Definition with_content (m : Message) (c : list MessageContent) : Message :=
  {| id := id m; role := role m; created := created m;
     content := c; display := display m; sendToLLM := sendToLLM m |}.

(** ** JavaScript values used by the two components *)

(** Property access [.msg] on a content block: only the marker variant
    has the field, on the others the access yields [undefined]. *)
Definition msg_field (c : MessageContent) : option string :=
  match c with
  | CompactionMarkerContent m => Some m
  | _ => None
  end.

(** [v || d] for [v : string | undefined]: [undefined] and the empty
    string are falsy. *)
Definition or_default (v : option string) (d : string) : string :=
  match v with
  | Some EmptyString => d
  | Some s => s
  | None => d
  end.

(** [`${n}`] for an integral number. *)
Definition String_of_number (n : Z) : string :=
  NilZero.string_of_int (Z.to_int n).

(** ** CompactionMarker.tsx *)

Inductive Element : Type :=
| elem (tag className : string) (children : list Element)
| text_node (s : string).

Fixpoint textContent (e : Element) : string :=
  match e with
  | text_node s => s
  | elem _ _ cs =>
      (fix go (l : list Element) : string :=
         match l with
         | [] => ""
         | c :: l' => textContent c ++ go l'
         end) cs
  end.

Definition compactionContent (message : Message) : option MessageContent :=
  find (fun content => ContentType_eqb (type content) type_compactionMarker)
       (content message).

Definition markerText (message : Message) : string :=
  or_default (match compactionContent message with
              | Some c => msg_field c
              | None => None
              end)
             "Conversation compacted".

Definition CompactionMarker (message : Message) : Element :=
  elem "div" "flex items-center text-xs text-gray-400 py-2"
    [ elem "div" "flex-grow border-t border-gray-300" [];
      elem "span" "px-3" [text_node (markerText message)];
      elem "div" "flex-grow border-t border-gray-300" [] ].

(** The later, left-aligned variant of the same component. *)
Module LeftAligned.
Definition CompactionMarker (message : Message) : Element :=
  elem "div" "text-xs text-gray-400 py-2 text-left"
    [text_node (markerText message)].
End LeftAligned.

(** ** ContextManager.tsx: [hasCompactionMarker] *)

Definition hasCompactionMarker (message : Message) : bool :=
  existsb (fun content => ContentType_eqb (type content) type_compactionMarker)
          (content message).

(** ** Values thrown and promise settlement *)

(** What a [catch (err)] clause can receive: an [Error] object, of which
    the code reads [.message], or any other thrown value. *)
Inductive JsThrown : Type :=
| ErrorObject (message : string)
| OtherThrown (description : string).

Inductive Completion (A : Type) : Type :=
| Normal (a : A)
| Abrupt (e : JsThrown).
Arguments Normal {A} a.
Arguments Abrupt {A} e.

(** [xs.map(f)] where [f] may throw: elements are visited left to right
    and the first exception aborts the whole map. *)
Fixpoint Array_map {A B : Type} (f : A -> Completion B) (xs : list A)
  : Completion (list B) :=
  match xs with
  | [] => Normal []
  | x :: xs' =>
      match f x with
      | Abrupt e => Abrupt e
      | Normal y =>
          match Array_map f xs' with
          | Abrupt e => Abrupt e
          | Normal ys => Normal (y :: ys)
          end
      end
  end.

Module ManageContextRequest.
Record t : Type := mk {
  messages : list Message;
  manageAction : string
}.
End ManageContextRequest.

Module ContextManageResponse.
Record t (ApiMessage : Type) : Type := mk {
  messages : list ApiMessage
}.
End ContextManageResponse.

(** How the promise returned by [manageContextFromBackend] settles. *)
Inductive Settlement (ApiMessage : Type) : Type :=
| Resolves (summaryResponse : ContextManageResponse.t ApiMessage)
| Rejects (err : JsThrown).
Arguments Rejects {ApiMessage} err.

(** ** The provider's runtime *)

Section Provider.

(** [ApiMessage] and the caller's own state are opaque to the provider. *)
Variable ApiMessage : Type.
Variable Caller : Type.

(** One pending [setTimeout] entry: the delay and the closure, which in
    this file only ever calls one of the caller's callbacks. *)
Definition Timer : Type := (Z * (Caller -> Caller))%type.

Record Runtime : Type := mkRuntime {
  isCompacting : bool;                 (* useState<boolean>(false) *)
  compactionError : option string;     (* useState<string | null>(null) *)
  caller : Caller;                     (* what the callbacks act on *)
  clock : nat -> Z;                    (* successive Date.now() readings *)
  ticks : nat;                         (* readings consumed so far *)
  requests : list ManageContextRequest.t;  (* calls made to the backend *)
  timers : list Timer;                 (* scheduled, not yet fired *)
  console : list (string * JsThrown)   (* console.error output *)
}.

(** Synchronous effects, indexed by the type of their result. *)
Inductive Eff : Type -> Type :=
| Date_now : Eff Z
| setIsCompacting (b : bool) : Eff unit
| setCompactionError (e : option string) : Eff unit
| console_error (label : string) (err : JsThrown) : Eff unit
| invoke (callback : Caller -> Caller) : Eff unit
| setTimeout (callback : Caller -> Caller) (delay : Z) : Eff unit.

(** An async function body: it returns, throws, performs a synchronous
    effect, or awaits the backend. *)
Inductive Prog (A : Type) : Type :=
| Ret (a : A)
| Throw (e : JsThrown)
| Vis (X : Type) (e : Eff X) (k : X -> Prog A)
| Await (req : ManageContextRequest.t) (k : Settlement ApiMessage -> Prog A).
Arguments Ret {A} a.
Arguments Throw {A} e.
Arguments Vis {A X} e k.
Arguments Await {A} req k.

Fixpoint bind {A B : Type} (p : Prog A) (f : A -> Prog B) : Prog B :=
  match p with
  | Ret a => f a
  | Throw e => Throw e
  | Vis e k => Vis e (fun x => bind (k x) f)
  | Await req k => Await req (fun s => bind (k s) f)
  end.

(** [try { p } catch (err) { h err }] *)
Fixpoint try_catch {A : Type} (p : Prog A) (h : JsThrown -> Prog A) : Prog A :=
  match p with
  | Ret a => Ret a
  | Throw e => h e
  | Vis e k => Vis e (fun x => try_catch (k x) h)
  | Await req k => Await req (fun s => try_catch (k s) h)
  end.

Definition perform {X : Type} (e : Eff X) : Prog X := Vis e Ret.

Definition lift {A : Type} (c : Completion A) : Prog A :=
  match c with
  | Normal a => Ret a
  | Abrupt e => Throw e
  end.

(** [await promise]: a rejection is rethrown at the await. *)
Definition await (req : ManageContextRequest.t)
  : Prog (ContextManageResponse.t ApiMessage) :=
  Await req (fun s =>
    match s with
    | Resolves resp => Ret resp
    | Rejects err => Throw err
    end).

Definition handle {X : Type} (e : Eff X) (r : Runtime) : X * Runtime :=
  match e in Eff X return X * Runtime with
  | Date_now =>
      (clock r (ticks r),
       mkRuntime (isCompacting r) (compactionError r) (caller r) (clock r)
                 (S (ticks r)) (requests r) (timers r) (console r))
  | setIsCompacting b =>
      (tt, mkRuntime b (compactionError r) (caller r) (clock r)
                     (ticks r) (requests r) (timers r) (console r))
  | setCompactionError e =>
      (tt, mkRuntime (isCompacting r) e (caller r) (clock r)
                     (ticks r) (requests r) (timers r) (console r))
  | console_error label err =>
      (tt, mkRuntime (isCompacting r) (compactionError r) (caller r) (clock r)
                     (ticks r) (requests r) (timers r)
                     (console r ++ [(label, err)]))
  | invoke callback =>
      (tt, mkRuntime (isCompacting r) (compactionError r) (callback (caller r))
                     (clock r) (ticks r) (requests r) (timers r) (console r))
  | setTimeout callback delay =>
      (tt, mkRuntime (isCompacting r) (compactionError r) (caller r) (clock r)
                     (ticks r) (requests r)
                     (timers r ++ [(delay, callback)]) (console r))
  end.

Definition sent (req : ManageContextRequest.t) (r : Runtime) : Runtime :=
  mkRuntime (isCompacting r) (compactionError r) (caller r) (clock r)
            (ticks r) (requests r ++ [req]) (timers r) (console r).

(** Where an invocation stands once its synchronous prefix has run:
    the returned promise has settled, or the body is parked at the
    await with the request already sent. *)
Inductive Suspension (A : Type) : Type :=
| Settled (c : Completion A) (r : Runtime)
| Pending (req : ManageContextRequest.t)
          (k : Settlement ApiMessage -> Prog A) (r : Runtime).

Fixpoint start {A : Type} (p : Prog A) (r : Runtime) : Suspension A :=
  match p with
  | Ret a => Settled (Normal a) r
  | Throw e => Settled (Abrupt e) r
  | Vis e k => let (x, r') := handle e r in start (k x) r'
  | Await req k => Pending req k (sent req r)
  end.

(** The backend, as far as the provider can tell: how the promise for
    a given request settles. *)
Variable manageContextFromBackend :
  ManageContextRequest.t -> Settlement ApiMessage.

(** Running a body to the settlement of its promise: [Normal] is a
    resolved promise, [Abrupt] a rejected one. *)
Fixpoint run {A : Type} (p : Prog A) (r : Runtime) : Completion A * Runtime :=
  match p with
  | Ret a => (Normal a, r)
  | Throw e => (Abrupt e, r)
  | Vis e k => let (x, r') := handle e r in run (k x) r'
  | Await req k => run (k (manageContextFromBackend req)) (sent req r)
  end.

Definition resume {A : Type} (s : Suspension A) : Completion A * Runtime :=
  match s with
  | Settled c r => (c, r)
  | Pending req k r => run (k (manageContextFromBackend req)) r
  end.

(** The event loop reaching the scheduled timers: each closure runs on
    the caller's state, in the order scheduled (all timers of this file
    carry the same delay). *)
Definition fire_timers (r : Runtime) : Runtime :=
  mkRuntime (isCompacting r) (compactionError r)
            (fold_left (fun c (t : Timer) => snd t c) (timers r) (caller r))
            (clock r) (ticks r) (requests r) [] (console r).

(** ** ContextManager.tsx: the provider's actions *)

(** Imported from [./index]; it is pure as far as the provider is
    concerned, and like any call it may throw. *)
Variable convertApiMessageToFrontendMessage :
  ApiMessage -> bool -> bool -> Completion Message.

Notation "x <- p ;; q" := (bind p (fun x => q))
  (at level 61, p at next level, right associativity).
Notation "p ;; q" := (bind p (fun _ => q))
  (at level 61, right associativity).

Definition inFlightMarker (isManual : bool) (id_now created_now : Z) : Message :=
  {| id := "compaction-marker-" ++ String_of_number id_now;
     role := assistant;
     created := created_now / 1000;
     content :=
       [CompactionMarkerContent
          (if isManual
           then "Compacting conversation as requested..."
           else "Context limit reached. Compacting conversation...")];
     display := true;
     sendToLLM := false |}.

Definition completedMarkerOf (compactionMarker : Message) : Message :=
  with_content compactionMarker
    [CompactionMarkerContent
       "Conversation compacted. Summary prepared to continue."].

Definition errorMarkerAt (id_now created_now : Z) : Message :=
  {| id := "compaction-error-" ++ String_of_number id_now;
     role := assistant;
     created := created_now / 1000;
     content :=
       [CompactionMarkerContent
          "Compaction failed. Please try again or start a new session."];
     display := true;
     sendToLLM := false |}.

(** [err instanceof Error ? err.message : 'Unknown error during compaction'] *)
Definition errorText (err : JsThrown) : string :=
  match err with
  | ErrorObject message => message
  | OtherThrown _ => "Unknown error during compaction"
  end.

Definition performCompaction
    (messages : list Message)
    (setMessages : list Message -> Caller -> Caller)
    (append : Message -> Caller -> Caller)
    (isManual : bool) : Prog unit :=
  perform (setIsCompacting true) ;;
  perform (setCompactionError None) ;;
  try_catch
    (id_now <- perform Date_now ;;
     created_now <- perform Date_now ;;
     let compactionMarker := inFlightMarker isManual id_now created_now in
     perform (invoke (setMessages (messages ++ [compactionMarker])%list)) ;;
     summaryResponse <-
       await (ManageContextRequest.mk messages "summarize") ;;
     convertedMessages <-
       lift (Array_map
               (fun apiMessage =>
                  convertApiMessageToFrontendMessage apiMessage false true)
               (ContextManageResponse.messages summaryResponse)) ;;
     match nth_error convertedMessages 0 with
     | Some summaryMessage =>
         match nth_error (content summaryMessage) 0 with
         | Some content0 =>
             if ContentType_eqb (type content0) type_text then
               let completedMarker := completedMarkerOf compactionMarker in
               perform (invoke (setMessages [completedMarker; summaryMessage])) ;;
               perform (setTimeout (append summaryMessage) 100)
             else Ret tt
         | None => Ret tt
         end
     | None => Ret tt
     end ;;
     perform (setIsCompacting false))
    (fun err =>
       perform (console_error "Error during compaction:" err) ;;
       perform (setCompactionError (Some (errorText err))) ;;
       id_now <- perform Date_now ;;
       created_now <- perform Date_now ;;
       let errorMarker := errorMarkerAt id_now created_now in
       perform (invoke (setMessages (messages ++ [errorMarker])%list)) ;;
       perform (setIsCompacting false)).

Definition handleAutoCompaction
    (messages : list Message)
    (setMessages : list Message -> Caller -> Caller)
    (append : Message -> Caller -> Caller) : Prog unit :=
  performCompaction messages setMessages append false ;; Ret tt.

Definition handleManualCompaction
    (messages : list Message)
    (setMessages : list Message -> Caller -> Caller) : Prog unit :=
  performCompaction messages setMessages (fun _ c => c) true ;; Ret tt.

End Provider.

Arguments Ret {ApiMessage Caller A} a.
Arguments Throw {ApiMessage Caller A} e.
Arguments Vis {ApiMessage Caller A X} e k.
Arguments Await {ApiMessage Caller A} req k.
Arguments Settled {ApiMessage Caller A} c r.
Arguments Pending {ApiMessage Caller A} req k r.

(** ** The calling component *)

(** Modelled from the spec: the component that calls the provider is not
    part of these files.  Its two capabilities are those of section 6: a
    history setter that accepts the full new sequence of messages, and a
    resume capability that accepts one message to submit as the next
    turn.  [submitted] records what the resume capability was handed. *)
Record ChatState : Type := mkChat {
  history : list Message;
  submitted : list Message
}.

Definition setMessages (messages : list Message) (c : ChatState) : ChatState :=
  {| history := messages; submitted := submitted c |}.

Definition append (message : Message) (c : ChatState) : ChatState :=
  {| history := history c; submitted := (submitted c ++ [message])%list |}.

(** * Properties *)

(** ** Decimal rendering of clock readings *)

Lemma to_int_normal (z : Z) : Z.to_int z = Decimal.norm (Z.to_int z).
Proof.
  rewrite <- (DecimalZ.to_of (Z.to_int z)).
  now rewrite DecimalZ.of_to.
Qed.

Lemma norm_not_nil (d : Decimal.int) :
  Decimal.norm d <> Decimal.Pos Decimal.Nil /\
  Decimal.norm d <> Decimal.Neg Decimal.Nil.
Proof.
  destruct d as [u | u]; simpl.
  - split; [ | discriminate ].
    intros [= E]. now apply (unorm_nonnil u).
  - destruct (Decimal.nzhead u) eqn:E; split; discriminate.
Qed.

Lemma String_of_number_inj (a b : Z) :
  String_of_number a = String_of_number b -> a = b.
Proof.
  unfold String_of_number. intros E.
  assert (P : forall z,
             NilZero.int_of_string (NilZero.string_of_int (Z.to_int z))
             = Some (Z.to_int z)).
  { intros z. apply NilZero.isi; rewrite to_int_normal; apply norm_not_nil. }
  apply (f_equal NilZero.int_of_string) in E.
  rewrite !P in E. injection E as E.
  apply (f_equal Z.of_int) in E.
  now rewrite !DecimalZ.of_to in E.
Qed.

(** ** The guard on the summary *)

(** The message that passes the test
    [summaryMessage && summaryMessage.content[0] &&
     summaryMessage.content[0].type === 'text'], if any. *)
Definition usableSummary (convertedMessages : list Message) : option Message :=
  match convertedMessages with
  | summaryMessage :: _ =>
      match content summaryMessage with
      | TextContent _ :: _ => Some summaryMessage
      | _ => None
      end
  | [] => None
  end.

Definition summarizeRequest (messages : list Message) : ManageContextRequest.t :=
  ManageContextRequest.mk messages "summarize".

Definition runtime_of {ApiMessage Caller A : Type}
    (s : Suspension ApiMessage Caller A) : Runtime Caller :=
  match s with
  | Settled _ r => r
  | Pending _ _ r => r
  end.

Definition pending_request {ApiMessage Caller A : Type}
    (s : Suspension ApiMessage Caller A) : option ManageContextRequest.t :=
  match s with
  | Settled _ _ => None
  | Pending req _ _ => Some req
  end.

Section RunEquations.

Variables ApiMessage Caller : Type.
Variable backend : ManageContextRequest.t -> Settlement ApiMessage.
Variable convert : ApiMessage -> bool -> bool -> Completion Message.

Variable H : list Message.
Variable setM : list Message -> Caller -> Caller.
Variable app : Message -> Caller -> Caller.
Variable isManual : bool.
Variable r : Runtime Caller.

Let marker : Message :=
  inFlightMarker isManual (clock r (ticks r)) (clock r (S (ticks r))).
Let errorMarker : Message :=
  errorMarkerAt (clock r (S (S (ticks r)))) (clock r (S (S (S (ticks r))))).
Let converted (resp : ContextManageResponse.t ApiMessage) :=
  Array_map (fun apiMessage => convert apiMessage false true)
            (ContextManageResponse.messages resp).

(** Running any body to settlement is running its synchronous prefix
    and then its continuation. *)
Lemma run_is_resume_start (A : Type) (p : Prog ApiMessage Caller A)
    (r0 : Runtime Caller) :
  run backend p r0 = resume backend (start p r0).
Proof.
  revert r0. induction p as [a | e | X e k IH | req k IH]; intros r0; simpl.
  - reflexivity.
  - reflexivity.
  - destruct (handle e r0) as [x r1]. apply IH.
  - reflexivity.
Qed.

(** The runtime at the await. *)
Definition atAwait : Runtime Caller :=
  mkRuntime true None (setM (H ++ [marker]) (caller r)) (clock r)
            (S (S (ticks r))) (requests r ++ [summarizeRequest H])
            (timers r) (console r).

Lemma start_performCompaction :
  exists k,
    start (performCompaction convert H setM app isManual) r
    = Pending (summarizeRequest H) k atAwait.
Proof. eexists. reflexivity. Qed.

Lemma run_rejected (err : JsThrown) :
  backend (summarizeRequest H) = Rejects err ->
  run backend (performCompaction convert H setM app isManual) r
  = (Normal tt,
     mkRuntime false (Some (errorText err))
               (setM (H ++ [errorMarker]) (setM (H ++ [marker]) (caller r)))
               (clock r) (S (S (S (S (ticks r)))))
               (requests r ++ [summarizeRequest H]) (timers r)
               (console r ++ [("Error during compaction:", err)])).
Proof.
  intros E. unfold performCompaction, summarizeRequest in *. cbn.
  rewrite E. reflexivity.
Qed.

Lemma run_conversion_throws resp (err : JsThrown) :
  backend (summarizeRequest H) = Resolves resp ->
  converted resp = Abrupt err ->
  run backend (performCompaction convert H setM app isManual) r
  = (Normal tt,
     mkRuntime false (Some (errorText err))
               (setM (H ++ [errorMarker]) (setM (H ++ [marker]) (caller r)))
               (clock r) (S (S (S (S (ticks r)))))
               (requests r ++ [summarizeRequest H]) (timers r)
               (console r ++ [("Error during compaction:", err)])).
Proof.
  intros E Ec. unfold performCompaction, summarizeRequest, converted in *. cbn.
  rewrite E. cbn. rewrite Ec. reflexivity.
Qed.

Lemma run_summarized resp summaryMessage rest :
  backend (summarizeRequest H) = Resolves resp ->
  converted resp = Normal (summaryMessage :: rest) ->
  usableSummary (summaryMessage :: rest) = Some summaryMessage ->
  run backend (performCompaction convert H setM app isManual) r
  = (Normal tt,
     mkRuntime false None
               (setM [completedMarkerOf marker; summaryMessage]
                     (setM (H ++ [marker]) (caller r)))
               (clock r) (S (S (ticks r)))
               (requests r ++ [summarizeRequest H])
               (timers r ++ [(100, app summaryMessage)])
               (console r)).
Proof.
  intros E Ec U. unfold performCompaction, summarizeRequest, converted in *. cbn.
  rewrite E. cbn. rewrite Ec. cbn.
  simpl in U. destruct (content summaryMessage) as [ | [t | m | o] more];
    try discriminate U.
  reflexivity.
Qed.

Lemma run_unusable resp convertedMessages :
  backend (summarizeRequest H) = Resolves resp ->
  converted resp = Normal convertedMessages ->
  usableSummary convertedMessages = None ->
  run backend (performCompaction convert H setM app isManual) r
  = (Normal tt,
     mkRuntime false None (setM (H ++ [marker]) (caller r))
               (clock r) (S (S (ticks r)))
               (requests r ++ [summarizeRequest H]) (timers r) (console r)).
Proof.
  intros E Ec U. unfold performCompaction, summarizeRequest, converted in *. cbn.
  rewrite E. cbn. rewrite Ec. cbn.
  destruct convertedMessages as [ | summaryMessage rest]; [ reflexivity | ].
  simpl in U. cbn.
  destruct (content summaryMessage) as [ | [t | m | o] more];
    try discriminate U; reflexivity.
Qed.

Lemma usableSummary_head convertedMessages summaryMessage :
  usableSummary convertedMessages = Some summaryMessage ->
  exists rest text more,
    convertedMessages = summaryMessage :: rest /\
    content summaryMessage = TextContent text :: more.
Proof.
  destruct convertedMessages as [ | m rest]; simpl; [ discriminate | ].
  destruct (content m) as [ | [t | x | o] more] eqn:E; try discriminate.
  intros [= <-]. now exists rest, t, more.
Qed.

(** Whatever the backend and the conversion do, the body settles
    normally, having sent exactly one request; the timer and the
    caller's submissions depend on whether a usable summary came back. *)
Lemma run_settles :
  exists r',
    run backend (performCompaction convert H setM app isManual) r
    = (Normal tt, r') /\
    requests r' = (requests r ++ [summarizeRequest H])%list /\
    isCompacting r' = false.
Proof.
  destruct (backend (summarizeRequest H)) as [resp | err] eqn:E.
  - destruct (converted resp) as [cs | err] eqn:Ec.
    + destruct (usableSummary cs) as [sm | ] eqn:U.
      * destruct (@usableSummary_head _ _ U) as (rest & t & more & -> & _).
        eexists. rewrite (run_summarized E Ec U). now repeat split.
      * eexists. rewrite (run_unusable E Ec U). now repeat split.
    + eexists. rewrite (run_conversion_throws E Ec). now repeat split.
  - eexists. rewrite (run_rejected E). now repeat split.
Qed.

Lemma run_bind (A B : Type) (p : Prog ApiMessage Caller A)
    (f : A -> Prog ApiMessage Caller B) (r0 : Runtime Caller) :
  run backend (bind p f) r0
  = match run backend p r0 with
    | (Normal a, r1) => run backend (f a) r1
    | (Abrupt e, r1) => (Abrupt e, r1)
    end.
Proof.
  revert r0. induction p as [a | e | X e k IH | req k IH]; intros r0; simpl.
  - reflexivity.
  - reflexivity.
  - destruct (handle e r0) as [x r1]. apply IH.
  - apply IH.
Qed.

End RunEquations.

Lemma marker_ids_differ (isManual : bool) (t c t' c' : Z) :
  id (inFlightMarker isManual t c) <> id (errorMarkerAt t' c').
Proof. simpl. discriminate. Qed.

Lemma inFlight_id_inj (b b' : bool) (t c t' c' : Z) :
  id (inFlightMarker b t c) = id (inFlightMarker b' t' c') -> t = t'.
Proof. simpl. intros [= E]. now apply String_of_number_inj. Qed.

Lemma error_id_inj (t c t' c' : Z) :
  id (errorMarkerAt t c) = id (errorMarkerAt t' c') -> t = t'.
Proof. simpl. intros [= E]. now apply String_of_number_inj. Qed.

(** The provider's own state put back to its initial value. *)
Definition idleProvider {Caller : Type} (r : Runtime Caller) : Runtime Caller :=
  mkRuntime false None (caller r) (clock r) (ticks r) (requests r)
            (timers r) (console r).

(** ** Concrete conversations *)

Module Scenario.

Definition hi : Message :=
  mkMessage "1" user 0 [TextContent "hi"] true true.

(** Provider-shaped messages are taken to be role and content. *)
Definition ApiMessage : Type := (Role * list MessageContent)%type.

Definition convert (apiMessage : ApiMessage) (display sendToLLM : bool)
  : Completion Message :=
  Normal (mkMessage "generated-id" (fst apiMessage) 1700000001
                    (snd apiMessage) display sendToLLM).

Definition summary : Message :=
  mkMessage "generated-id" assistant 1700000001
            [TextContent "Summary of conversation."] false true.

Definition summarizing (_ : ManageContextRequest.t) : Settlement ApiMessage :=
  Resolves (ContextManageResponse.mk
              [(assistant, [TextContent "Summary of conversation."])]).

Definition failing (_ : ManageContextRequest.t) : Settlement ApiMessage :=
  Rejects (ErrorObject "network error").

Definition answeringNothing (_ : ManageContextRequest.t)
  : Settlement ApiMessage :=
  Resolves (ContextManageResponse.mk []).

Definition idle (messages : list Message) : Runtime ChatState :=
  mkRuntime false None (mkChat messages [])
            (fun n => 1700000000000 + Z.of_nat n) 0 [] [] [].

Definition inFlight : Message :=
  mkMessage "compaction-marker-1700000000000" assistant 1700000000
            [CompactionMarkerContent "Compacting conversation as requested..."]
            true false.

(** A message carrying two marker blocks, the second with empty text. *)
Definition twoMarkers : Message :=
  mkMessage "m" assistant 0
            [CompactionMarkerContent "Compacting conversation as requested...";
             CompactionMarkerContent ""]
            true false.

Definition emptyMarker : Message :=
  mkMessage "m" assistant 0 [CompactionMarkerContent ""] true false.

End Scenario.

(** ** The marker renderer *)

Lemma compactionContent_none (message : Message) :
  hasCompactionMarker message = false -> compactionContent message = None.
Proof.
  unfold hasCompactionMarker, compactionContent.
  induction (content message) as [ | c cs IH]; simpl; [ reflexivity | ].
  destruct (ContentType_eqb (type c) type_compactionMarker); simpl.
  - discriminate.
  - exact IH.
Qed.

Lemma textContent_CompactionMarker (message : Message) :
  textContent (CompactionMarker message) = markerText message.
Proof.
  simpl. induction (markerText message) as [ | a s IH]; simpl.
  - reflexivity.
  - now rewrite IH.
Qed.

(** C9, as stated, fails: [find] returns the first marker block, so a
    later marker block with empty [msg] does not make the renderer fall
    back to the default text. *)
Lemma empty_msg_not_first_counterexample :
  In (CompactionMarkerContent "") (content Scenario.twoMarkers) /\
  textContent (CompactionMarker Scenario.twoMarkers) <> "Conversation compacted".
Proof.
  split.
  - simpl. right. left. reflexivity.
  - simpl. discriminate.
Qed.

(** C9 (amended): for every message whose first [compactionMarker]
    content block, the one [find] returns, has the empty string as [msg],
    the renderer shows the literal "Conversation compacted"; and what is
    rendered is a function of the message's content alone, so rendering
    the same message again gives the same output. *)
Theorem empty_msg_renders_default (message : Message) :
  compactionContent message = Some (CompactionMarkerContent "") ->
  markerText message = "Conversation compacted" /\
  textContent (CompactionMarker message) = "Conversation compacted" /\
  textContent (LeftAligned.CompactionMarker message) = "Conversation compacted" /\
  forall again : Message,
    content again = content message ->
    CompactionMarker again = CompactionMarker message.
Proof.
  intros E.
  assert (T : markerText message = "Conversation compacted").
  { unfold markerText. rewrite E. reflexivity. }
  split; [ exact T | ].
  split; [ rewrite textContent_CompactionMarker; exact T | ].
  split; [ simpl; rewrite T; reflexivity | ].
  intros again Eq. unfold CompactionMarker, markerText, compactionContent.
  now rewrite Eq.
Qed.

Lemma empty_msg_renders_default_witness :
  compactionContent Scenario.emptyMarker = Some (CompactionMarkerContent "") /\
  textContent (CompactionMarker Scenario.emptyMarker) = "Conversation compacted".
Proof.
  split.
  - reflexivity.
  - apply (empty_msg_renders_default Scenario.emptyMarker). reflexivity.
Defined.

(** C10: on a message with no [compactionMarker] content block the
    renderer still returns an element: [find] yields [undefined], the
    optional access yields [undefined], and the default text
    "Conversation compacted" is shown. *)
Theorem no_marker_block_renders_default (message : Message) :
  hasCompactionMarker message = false ->
  compactionContent message = None /\
  markerText message = "Conversation compacted" /\
  CompactionMarker message =
    elem "div" "flex items-center text-xs text-gray-400 py-2"
      [ elem "div" "flex-grow border-t border-gray-300" [];
        elem "span" "px-3" [text_node "Conversation compacted"];
        elem "div" "flex-grow border-t border-gray-300" [] ] /\
  textContent (CompactionMarker message) = "Conversation compacted".
Proof.
  intros N. pose proof (compactionContent_none message N) as E.
  assert (T : markerText message = "Conversation compacted").
  { unfold markerText. rewrite E. reflexivity. }
  repeat split.
  - exact E.
  - exact T.
  - unfold CompactionMarker. now rewrite T.
  - rewrite textContent_CompactionMarker. exact T.
Qed.

Lemma no_marker_block_renders_default_witness :
  hasCompactionMarker Scenario.hi = false /\
  textContent (CompactionMarker Scenario.hi) = "Conversation compacted".
Proof.
  split.
  - reflexivity.
  - apply (no_marker_block_renders_default Scenario.hi). reflexivity.
Defined.

(** ** The coordinator, observed by a calling component *)

Section Coordinator.

Variable ApiMessage : Type.
Variable backend : ManageContextRequest.t -> Settlement ApiMessage.
Variable convert : ApiMessage -> bool -> bool -> Completion Message.

(** C1: when the backend resolves, the converted messages start with a
    message whose first content block is text, then on completion the
    caller's history is exactly the completed marker followed by that
    message, whatever the history was; the completed marker keeps the
    identifier of the in-flight marker put in the history before the
    await, and its text is the completion status. *)
Theorem history_collapse_on_success
    (H : list Message) (resume : Message -> ChatState -> ChatState)
    (isManual : bool) (r : Runtime ChatState)
    (resp : ContextManageResponse.t ApiMessage)
    (summaryMessage : Message) (rest : list Message)
    (text : string) (more : list MessageContent) :
  backend (summarizeRequest H) = Resolves resp ->
  Array_map (fun apiMessage => convert apiMessage false true)
            (ContextManageResponse.messages resp)
  = Normal (summaryMessage :: rest) ->
  content summaryMessage = TextContent text :: more ->
  let p := performCompaction convert H setMessages resume isManual in
  exists inFlight completedMarker : Message,
    history (caller (runtime_of (start p r))) = (H ++ [inFlight])%list /\
    fst (run backend p r) = Normal tt /\
    history (caller (snd (run backend p r)))
    = [completedMarker; summaryMessage] /\
    id completedMarker = id inFlight /\
    content completedMarker =
      [CompactionMarkerContent
         "Conversation compacted. Summary prepared to continue."].
Proof.
  intros E Ec Et p.
  assert (U : usableSummary (summaryMessage :: rest) = Some summaryMessage).
  { simpl. now rewrite Et. }
  exists (inFlightMarker isManual (clock r (ticks r)) (clock r (S (ticks r)))).
  eexists. subst p.
  rewrite (@run_summarized _ _ backend convert H setMessages resume isManual r resp summaryMessage rest E Ec U).
  simpl. repeat split.
Qed.

(** C2 (amended): when the summarization call rejects, the catch
    clause rebuilds the history from the messages the trigger was given:
    on completion the caller's history is those N messages, unaltered,
    followed by exactly one error marker (length N+1).  The in-flight
    marker set before the await is not kept; the error marker, which has
    a different identifier, stands in its place.  [compactionError] holds
    the error's text and [isCompacting] is false again. *)
Theorem error_marker_follows_call_time_history
    (H : list Message) (resume : Message -> ChatState -> ChatState)
    (isManual : bool) (r : Runtime ChatState) (err : JsThrown) :
  backend (summarizeRequest H) = Rejects err ->
  let p := performCompaction convert H setMessages resume isManual in
  exists inFlight errorMarker : Message,
    history (caller (runtime_of (start p r))) = (H ++ [inFlight])%list /\
    history (caller (snd (run backend p r))) = (H ++ [errorMarker])%list /\
    List.length (history (caller (snd (run backend p r))))
    = S (List.length H) /\
    content errorMarker =
      [CompactionMarkerContent
         "Compaction failed. Please try again or start a new session."] /\
    id errorMarker <> id inFlight /\
    compactionError (snd (run backend p r)) = Some (errorText err) /\
    isCompacting (snd (run backend p r)) = false /\
    fst (run backend p r) = Normal tt.
Proof.
  intros E p. subst p.
  rewrite (@run_rejected _ _ backend convert H setMessages resume isManual r err E).
  do 2 eexists. simpl.
  split; [ reflexivity | ].
  split; [ reflexivity | ].
  split; [ rewrite length_app; simpl; lia | ].
  split; [ reflexivity | ].
  split; [ | now repeat split ].
  intros Q. symmetry in Q. revert Q.
  apply marker_ids_differ.
Qed.

(** C4 (amended): the triggers never read [isCompacting].  Invoked in a
    state where it is true, either trigger at once sends a summarization
    request for the messages it was given and sets the history to those
    messages plus a new in-flight marker, exactly as it does from the
    initial provider state; keeping compactions apart is left to the
    caller. *)
Theorem trigger_while_compacting_starts_again
    (H : list Message) (resume : Message -> ChatState -> ChatState)
    (r : Runtime ChatState) :
  isCompacting r = true ->
  let auto := start (handleAutoCompaction convert H setMessages resume) r in
  let manual := start (handleManualCompaction convert H setMessages) r in
  (pending_request auto = Some (summarizeRequest H) /\
   requests (runtime_of auto) = (requests r ++ [summarizeRequest H])%list /\
   history (caller (runtime_of auto))
   = (H ++ [inFlightMarker false (clock r (ticks r))
                           (clock r (S (ticks r)))])%list /\
   runtime_of auto
   = runtime_of (start (handleAutoCompaction convert H setMessages resume)
                       (idleProvider r))) /\
  (pending_request manual = Some (summarizeRequest H) /\
   requests (runtime_of manual) = (requests r ++ [summarizeRequest H])%list /\
   history (caller (runtime_of manual))
   = (H ++ [inFlightMarker true (clock r (ticks r))
                           (clock r (S (ticks r)))])%list /\
   runtime_of manual
   = runtime_of (start (handleManualCompaction convert H setMessages)
                       (idleProvider r))).
Proof.
  intros _ auto manual. subst auto manual.
  split; repeat split.
Qed.

(** C5 (amended): the caller's resume capability is invoked only by the
    automatic trigger.  With no timer pending beforehand, a successful
    compaction started by [handleAutoCompaction] schedules exactly one
    timer, which hands the caller's [append] the summary message, the
    first converted message of the response, whose first content block
    is its text: [append] is not called before that timer fires and is
    called exactly once when it does.  A successful compaction started
    by [handleManualCompaction] schedules one timer too, but its callback
    does nothing: the caller's resume capability is never invoked.  When
    the compaction fails (the call rejects, the conversion throws, or no
    usable summary comes back), by either trigger, no timer is scheduled
    and nothing is ever submitted. *)
Theorem resume_only_after_automatic_success
    (H : list Message) (r : Runtime ChatState) :
  timers r = [] ->
  let automatic :=
    snd (run backend (handleAutoCompaction convert H setMessages append) r) in
  let manual :=
    snd (run backend (handleManualCompaction convert H setMessages) r) in
  (forall resp summaryMessage rest text more,
      backend (summarizeRequest H) = Resolves resp ->
      Array_map (fun apiMessage => convert apiMessage false true)
                (ContextManageResponse.messages resp)
      = Normal (summaryMessage :: rest) ->
      content summaryMessage = TextContent text :: more ->
      (timers automatic = [(100, append summaryMessage)] /\
       submitted (caller automatic) = submitted (caller r) /\
       submitted (caller (fire_timers automatic))
       = (submitted (caller r) ++ [summaryMessage])%list) /\
      (timers manual = [(100, fun c : ChatState => c)] /\
       caller (fire_timers manual) = caller manual /\
       submitted (caller (fire_timers manual)) = submitted (caller r))) /\
  ((exists err, backend (summarizeRequest H) = Rejects err) \/
   (exists resp err,
       backend (summarizeRequest H) = Resolves resp /\
       Array_map (fun apiMessage => convert apiMessage false true)
                 (ContextManageResponse.messages resp) = Abrupt err) \/
   (exists resp convertedMessages,
       backend (summarizeRequest H) = Resolves resp /\
       Array_map (fun apiMessage => convert apiMessage false true)
                 (ContextManageResponse.messages resp)
       = Normal convertedMessages /\
       usableSummary convertedMessages = None) ->
   (timers automatic = [] /\
    submitted (caller (fire_timers automatic)) = submitted (caller r)) /\
   (timers manual = [] /\
    submitted (caller (fire_timers manual)) = submitted (caller r))).
Proof.
  intros T automatic manual. subst automatic manual.
  unfold handleAutoCompaction, handleManualCompaction.
  rewrite !run_bind. split.
  - intros resp summaryMessage rest text more E Ec Et.
    assert (U : usableSummary (summaryMessage :: rest) = Some summaryMessage).
    { simpl. now rewrite Et. }
    rewrite (@run_summarized _ _ backend convert H setMessages append false
               r resp summaryMessage rest E Ec U).
    rewrite (@run_summarized _ _ backend convert H setMessages
               (fun _ c => c) true r resp summaryMessage rest E Ec U).
    simpl. rewrite T. simpl. repeat split.
  - intros [(err & E) | [(resp & err & E & Ec) | (resp & cs & E & Ec & U)]].
    + rewrite (@run_rejected _ _ backend convert H setMessages append false
                 r err E).
      rewrite (@run_rejected _ _ backend convert H setMessages
                 (fun _ c => c) true r err E).
      simpl. rewrite T. simpl. repeat split.
    + rewrite (@run_conversion_throws _ _ backend convert H setMessages append
                 false r resp err E Ec).
      rewrite (@run_conversion_throws _ _ backend convert H setMessages
                 (fun _ c => c) true r resp err E Ec).
      simpl. rewrite T. simpl. repeat split.
    + rewrite (@run_unusable _ _ backend convert H setMessages append false
                 r resp cs E Ec U).
      rewrite (@run_unusable _ _ backend convert H setMessages
                 (fun _ c => c) true r resp cs E Ec U).
      simpl. rewrite T. simpl. repeat split.
Qed.

(** C6: the request handed to the backend carries exactly the messages
    the trigger was given and the action ['summarize'].  It is sent once,
    after the history was set to those messages plus the in-flight
    marker, and that marker is not part of it. *)
Theorem summarization_request_is_call_time_history
    (H : list Message) (resume : Message -> ChatState -> ChatState)
    (isManual : bool) (r : Runtime ChatState) :
  let p := performCompaction convert H setMessages resume isManual in
  let inFlight :=
    inFlightMarker isManual (clock r (ticks r)) (clock r (S (ticks r))) in
  pending_request (start p r)
  = Some (ManageContextRequest.mk H "summarize") /\
  history (caller (runtime_of (start p r))) = (H ++ [inFlight])%list /\
  requests (runtime_of (start p r))
  = (requests r ++ [ManageContextRequest.mk H "summarize"])%list /\
  requests (snd (run backend p r))
  = (requests r ++ [ManageContextRequest.mk H "summarize"])%list /\
  ManageContextRequest.messages (ManageContextRequest.mk H "summarize")
  <> history (caller (runtime_of (start p r))).
Proof.
  intros p inFlight. subst p inFlight.
  split; [ reflexivity | ].
  split; [ reflexivity | ].
  split; [ reflexivity | ].
  split.
  - destruct (@run_settles _ _ backend convert H setMessages resume isManual r)
      as (r' & -> & Rq & _).
    exact Rq.
  - simpl. intros Q. apply (f_equal (@List.length Message)) in Q.
    rewrite length_app in Q. simpl in Q. lia.
Qed.

(** C7 (amended): the in-flight marker and the error marker each have
    role assistant, [display = true], [sendToLLM = false], exactly one
    content block, of type [compactionMarker], and as creation time the
    clock reading in whole seconds.  The identifier is the marker kind's
    prefix followed by the millisecond clock reading: an in-flight
    marker's identifier always differs from an error marker's, and two
    markers of one kind differ in identifier whenever their clock
    readings differ; nothing compares it with the identifiers already in
    the history.  The in-flight text is 'Compacting conversation as
    requested...' for a manual trigger and 'Context limit reached.
    Compacting conversation...' for an automatic one. *)
Theorem markers_are_display_only
    (H : list Message) (resume : Message -> ChatState -> ChatState)
    (isManual : bool) (r : Runtime ChatState) (err : JsThrown) :
  backend (summarizeRequest H) = Rejects err ->
  let p := performCompaction convert H setMessages resume isManual in
  let t0 := clock r (ticks r) in
  let t1 := clock r (S (ticks r)) in
  let t2 := clock r (S (S (ticks r))) in
  let t3 := clock r (S (S (S (ticks r)))) in
  exists inFlight errorMarker : Message,
    history (caller (runtime_of (start p r))) = (H ++ [inFlight])%list /\
    history (caller (snd (run backend p r))) = (H ++ [errorMarker])%list /\
    (role inFlight = assistant /\
     display inFlight = true /\
     sendToLLM inFlight = false /\
     created inFlight = t1 / 1000 /\
     id inFlight = "compaction-marker-" ++ String_of_number t0 /\
     content inFlight =
       [CompactionMarkerContent
          (if isManual
           then "Compacting conversation as requested..."
           else "Context limit reached. Compacting conversation...")] /\
     hasCompactionMarker inFlight = true) /\
    (role errorMarker = assistant /\
     display errorMarker = true /\
     sendToLLM errorMarker = false /\
     created errorMarker = t3 / 1000 /\
     id errorMarker = "compaction-error-" ++ String_of_number t2 /\
     content errorMarker =
       [CompactionMarkerContent
          "Compaction failed. Please try again or start a new session."] /\
     hasCompactionMarker errorMarker = true) /\
    id inFlight <> id errorMarker /\
    (forall (b : bool) (t c : Z),
        t <> t0 -> id (inFlightMarker b t c) <> id inFlight) /\
    (forall t c : Z, t <> t2 -> id (errorMarkerAt t c) <> id errorMarker) /\
    content (inFlightMarker true t0 t1) <> content (inFlightMarker false t0 t1).
Proof.
  intros E p t0 t1 t2 t3. subst p.
  rewrite (@run_rejected _ _ backend convert H setMessages resume isManual r err E).
  exists (inFlightMarker isManual t0 t1), (errorMarkerAt t2 t3).
  split; [ reflexivity | ].
  split; [ reflexivity | ].
  split; [ now repeat split | ].
  split; [ now repeat split | ].
  split; [ apply marker_ids_differ | ].
  split; [ | split ].
  - intros b t c N Q. apply N. exact (inFlight_id_inj Q).
  - intros t c N Q. apply N. exact (error_id_inj Q).
  - simpl. discriminate.
Qed.


End Coordinator.

(** ** The scenarios, run *)

Module Run.
Import Scenario.

Definition response : ContextManageResponse.t ApiMessage :=
  ContextManageResponse.mk
    [(assistant, [TextContent "Summary of conversation."])].

Definition manual : Prog ApiMessage ChatState unit :=
  performCompaction convert [hi] setMessages append true.

Definition automatic : Prog ApiMessage ChatState unit :=
  performCompaction convert [hi] setMessages append false.

(** The runtime while a manual compaction of [[hi]] awaits the backend. *)
Definition busy : Runtime ChatState :=
  runtime_of (start (handleManualCompaction convert [hi] setMessages)
                    (idle [hi])).
End Run.

Lemma history_collapse_on_success_witness :
  exists inFlight completedMarker : Message,
    history (caller (runtime_of (start Run.manual (Scenario.idle [Scenario.hi]))))
    = [Scenario.hi; inFlight] /\
    fst (run Scenario.summarizing Run.manual (Scenario.idle [Scenario.hi]))
    = Normal tt /\
    history (caller (snd (run Scenario.summarizing Run.manual
                              (Scenario.idle [Scenario.hi]))))
    = [completedMarker; Scenario.summary] /\
    id completedMarker = id inFlight /\
    content completedMarker =
      [CompactionMarkerContent
         "Conversation compacted. Summary prepared to continue."].
Proof.
  exact (@history_collapse_on_success
           Scenario.ApiMessage Scenario.summarizing Scenario.convert
           [Scenario.hi] append true (Scenario.idle [Scenario.hi])
           Run.response Scenario.summary [] "Summary of conversation." []
           eq_refl eq_refl eq_refl).
Defined.

(** C2, as stated, fails: with one message in the history and a
    rejecting call, the history at the time of failure has two entries,
    and the final history has two entries as well, not three; it is not
    the history at the time of failure with an error marker appended. *)
Lemma in_flight_marker_not_kept_counterexample :
  let atFailure :=
    history (caller (runtime_of (start Run.automatic
                                       (Scenario.idle [Scenario.hi])))) in
  let final :=
    history (caller (snd (run Scenario.failing Run.automatic
                              (Scenario.idle [Scenario.hi])))) in
  List.length atFailure = 2%nat /\
  List.length final <> 3%nat /\
  ~ (exists errorMarker : Message, final = (atFailure ++ [errorMarker])%list).
Proof.
  vm_compute. split; [ reflexivity | ]. split; [ discriminate | ].
  intros (errorMarker & Q). discriminate Q.
Qed.

Lemma error_marker_follows_call_time_history_witness :
  exists inFlight errorMarker : Message,
    history (caller (runtime_of (start Run.automatic
                                       (Scenario.idle [Scenario.hi]))))
    = [Scenario.hi; inFlight] /\
    history (caller (snd (run Scenario.failing Run.automatic
                              (Scenario.idle [Scenario.hi]))))
    = [Scenario.hi; errorMarker] /\
    List.length (history (caller (snd (run Scenario.failing Run.automatic
                                           (Scenario.idle [Scenario.hi])))))
    = 2%nat /\
    content errorMarker =
      [CompactionMarkerContent
         "Compaction failed. Please try again or start a new session."] /\
    id errorMarker <> id inFlight /\
    compactionError (snd (run Scenario.failing Run.automatic
                              (Scenario.idle [Scenario.hi])))
    = Some "network error" /\
    isCompacting (snd (run Scenario.failing Run.automatic
                           (Scenario.idle [Scenario.hi]))) = false /\
    fst (run Scenario.failing Run.automatic (Scenario.idle [Scenario.hi]))
    = Normal tt.
Proof.
  exact (@error_marker_follows_call_time_history
           Scenario.ApiMessage Scenario.failing Scenario.convert
           [Scenario.hi] append false (Scenario.idle [Scenario.hi])
           (ErrorObject "network error") eq_refl).
Defined.

(** C3: what the code does when the backend resolves with an empty list
    of messages.  The promise resolves, [isCompacting] is false again, no
    timer is scheduled, but [compactionError] stays [null], nothing is
    logged, and the history still ends with the in-flight marker: no error
    marker is appended. *)
Lemma unusable_response_leaves_in_flight_marker :
  let final :=
    snd (run Scenario.answeringNothing Run.manual
             (Scenario.idle [Scenario.hi])) in
  fst (run Scenario.answeringNothing Run.manual (Scenario.idle [Scenario.hi]))
  = Normal tt /\
  compactionError final = None /\
  history (caller final) = [Scenario.hi; Scenario.inFlight] /\
  isCompacting final = false /\
  timers final = [] /\
  console final = [].
Proof. vm_compute. repeat split. Qed.

(** C4, as stated, fails: while a first compaction awaits the backend and
    [isCompacting] is true, a second trigger sends a second request and
    changes the history. *)
Lemma second_trigger_counterexample :
  let second :=
    start (handleAutoCompaction Scenario.convert (history (caller Run.busy))
                                setMessages append)
          Run.busy in
  isCompacting Run.busy = true /\
  List.length (requests Run.busy) = 1%nat /\
  List.length (requests (runtime_of second)) = 2%nat /\
  history (caller (runtime_of second)) <> history (caller Run.busy).
Proof.
  vm_compute. repeat split. discriminate.
Qed.

Lemma trigger_while_compacting_starts_again_witness :
  isCompacting Run.busy = true /\
  pending_request
    (start (handleManualCompaction Scenario.convert [Scenario.hi] setMessages)
           Run.busy)
  = Some (summarizeRequest [Scenario.hi]).
Proof.
  split; [ reflexivity | ].
  apply (@trigger_while_compacting_starts_again
           Scenario.ApiMessage Scenario.convert [Scenario.hi] append Run.busy
           eq_refl).
Defined.

(** C5, as stated, fails for the manual trigger: on the manual scenario
    the compaction succeeds, the history is the completed marker and the
    summary, and yet, the timer fired, nothing was handed to the caller's
    resume capability. *)
Lemma manual_success_submits_nothing_counterexample :
  let final :=
    snd (run Scenario.summarizing
             (handleManualCompaction Scenario.convert [Scenario.hi] setMessages)
             (Scenario.idle [Scenario.hi])) in
  fst (run Scenario.summarizing
           (handleManualCompaction Scenario.convert [Scenario.hi] setMessages)
           (Scenario.idle [Scenario.hi])) = Normal tt /\
  (exists completedMarker : Message,
      history (caller final) = [completedMarker; Scenario.summary]) /\
  submitted (caller (fire_timers final)) = [] /\
  submitted (caller (fire_timers final)) <> [Scenario.summary].
Proof.
  vm_compute. split; [ reflexivity | ].
  split; [ eexists; reflexivity | ].
  split; [ reflexivity | discriminate ].
Qed.

Lemma resume_only_after_automatic_success_witness :
  timers (Scenario.idle [Scenario.hi]) = [] /\
  submitted
    (caller
       (fire_timers
          (snd (run Scenario.summarizing
                    (handleAutoCompaction Scenario.convert [Scenario.hi]
                                          setMessages append)
                    (Scenario.idle [Scenario.hi])))))
  = [Scenario.summary] /\
  submitted
    (caller
       (fire_timers
          (snd (run Scenario.summarizing
                    (handleManualCompaction Scenario.convert [Scenario.hi]
                                            setMessages)
                    (Scenario.idle [Scenario.hi])))))
  = [] /\
  submitted
    (caller
       (fire_timers
          (snd (run Scenario.failing
                    (handleAutoCompaction Scenario.convert [Scenario.hi]
                                          setMessages append)
                    (Scenario.idle [Scenario.hi])))))
  = [].
Proof.
  split; [ reflexivity | ].
  destruct (@resume_only_after_automatic_success
              Scenario.ApiMessage Scenario.summarizing Scenario.convert
              [Scenario.hi] (Scenario.idle [Scenario.hi]) eq_refl)
    as [Success _].
  destruct (Success Run.response Scenario.summary []
                    "Summary of conversation." [] eq_refl eq_refl eq_refl)
    as ((_ & _ & Fired) & (_ & _ & Quiet)).
  destruct (@resume_only_after_automatic_success
              Scenario.ApiMessage Scenario.failing Scenario.convert
              [Scenario.hi] (Scenario.idle [Scenario.hi]) eq_refl)
    as [_ Failure].
  destruct (Failure (or_introl (ex_intro _ (ErrorObject "network error")
                                         eq_refl)))
    as ((_ & Failed) & _).
  split; [ exact Fired | ]. split; [ exact Quiet | exact Failed ].
Defined.

(** C7, as stated, fails on the identifier: a history that already holds
    a message with the identifier the clock reading yields gets a marker
    with that same identifier. *)
Lemma marker_id_reused_counterexample :
  let s :=
    start (handleManualCompaction Scenario.convert [Scenario.inFlight]
                                  setMessages)
          (Scenario.idle [Scenario.inFlight]) in
  exists older newer : Message,
    history (caller (runtime_of s)) = [older; newer] /\
    In older [Scenario.inFlight] /\
    id newer = id older.
Proof.
  vm_compute. do 2 eexists. split; [ reflexivity | ].
  split; [ left; reflexivity | reflexivity ].
Qed.

Lemma markers_are_display_only_witness :
  exists inFlight errorMarker : Message,
    history (caller (runtime_of (start Run.manual
                                       (Scenario.idle [Scenario.hi]))))
    = [Scenario.hi; inFlight] /\
    history (caller (snd (run Scenario.failing Run.manual
                              (Scenario.idle [Scenario.hi]))))
    = [Scenario.hi; errorMarker] /\
    sendToLLM inFlight = false /\
    sendToLLM errorMarker = false /\
    id inFlight = "compaction-marker-1700000000000" /\
    id errorMarker = "compaction-error-1700000000002".
Proof.
  destruct (@markers_are_display_only
              Scenario.ApiMessage Scenario.failing Scenario.convert
              [Scenario.hi] append true (Scenario.idle [Scenario.hi])
              (ErrorObject "network error") eq_refl)
    as (inFlight & errorMarker & Hs & Hf & Hi & He & _).
  exists inFlight, errorMarker.
  destruct Hi as (_ & _ & Si & _ & Ii & _).
  destruct He as (_ & _ & Se & _ & Ie & _).
  repeat split; assumption.
Defined.

(** * Further properties of the two components *)

(** ** The renderer and the provider's predicate *)

(** X1: [hasCompactionMarker] accepts exactly the messages on which the
    renderer's [find] succeeds, and what [find] then returns is a marker
    block. *)
Theorem marker_lookup_agrees (message : Message) :
  hasCompactionMarker message = true <->
  exists msg : string,
    compactionContent message = Some (CompactionMarkerContent msg).
Proof.
  unfold hasCompactionMarker, compactionContent.
  induction (content message) as [ | c cs IH]; simpl.
  - split; [ discriminate | intros (msg & Q); discriminate Q ].
  - destruct c as [t | m | o]; simpl.
    + exact IH.
    + split; [ intros _; now exists m | reflexivity ].
    + exact IH.
Qed.

Lemma markerText_nonempty (message : Message) : markerText message <> "".
Proof.
  unfold markerText, or_default.
  destruct (compactionContent message) as [c | ]; [ | discriminate ].
  destruct (msg_field c) as [[ | a s] | ]; discriminate.
Qed.

Lemma textContent_LeftAligned (message : Message) :
  textContent (LeftAligned.CompactionMarker message) = markerText message.
Proof.
  simpl. induction (markerText message) as [ | a s IH]; simpl.
  - reflexivity.
  - now rewrite IH.
Qed.

(** X2: both variants of the component show the same status text, and
    that text is never empty: a missing marker block or an empty [msg]
    is replaced by the default. *)
Theorem status_line_never_empty (message : Message) :
  textContent (CompactionMarker message)
  = textContent (LeftAligned.CompactionMarker message) /\
  textContent (CompactionMarker message) <> "".
Proof.
  rewrite textContent_CompactionMarker, textContent_LeftAligned. split.
  - reflexivity.
  - apply markerText_nonempty.
Qed.

Lemma find_skips (A : Type) (f : A -> bool) (pre : list A) (x : A)
    (rest : list A) :
  Forall (fun a => f a = false) pre ->
  f x = true ->
  find f (pre ++ x :: rest) = Some x.
Proof.
  intros P X. induction P as [ | a pre Fa _ IH]; simpl.
  - now rewrite X.
  - now rewrite Fa.
Qed.

(** X3: the renderer shows the [msg] of the first marker block when it
    is not empty: content blocks of other types before it are skipped,
    and whatever follows it, further marker blocks included, is ignored. *)
Theorem first_marker_block_is_rendered
    (message : Message) (pre : list MessageContent) (msg : string)
    (rest : list MessageContent) :
  Forall (fun c => type c <> type_compactionMarker) pre ->
  msg <> "" ->
  content message = (pre ++ CompactionMarkerContent msg :: rest)%list ->
  markerText message = msg /\
  textContent (CompactionMarker message) = msg /\
  textContent (LeftAligned.CompactionMarker message) = msg.
Proof.
  intros P N E.
  assert (T : markerText message = msg).
  { unfold markerText, compactionContent. rewrite E.
    rewrite find_skips with (x := CompactionMarkerContent msg).
    - simpl. destruct msg; [ now elim N | reflexivity ].
    - eapply Forall_impl; [ | exact P ].
      intros c Hc. destruct c; simpl in *; try reflexivity. now elim Hc.
    - reflexivity. }
  rewrite textContent_CompactionMarker, textContent_LeftAligned.
  now repeat split.
Qed.

Lemma first_marker_block_is_rendered_witness :
  Forall (fun c => type c <> type_compactionMarker) [TextContent "note"] /\
  textContent
    (CompactionMarker
       (mkMessage "m" assistant 0
          [TextContent "note";
           CompactionMarkerContent "Compacting conversation as requested...";
           CompactionMarkerContent "Compaction failed."] true false))
  = "Compacting conversation as requested...".
Proof.
  assert (P : Forall (fun c => type c <> type_compactionMarker)
                     [TextContent "note"]).
  { constructor; [ discriminate | constructor ]. }
  split; [ exact P | ].
  apply (@first_marker_block_is_rendered
           (mkMessage "m" assistant 0
              [TextContent "note";
               CompactionMarkerContent "Compacting conversation as requested...";
               CompactionMarkerContent "Compaction failed."] true false)
           [TextContent "note"]
           "Compacting conversation as requested..."
           [CompactionMarkerContent "Compaction failed."]
           P).
  - discriminate.
  - reflexivity.
Defined.

(** ** Settling after the world has moved on *)

Section Resumption.

Variables ApiMessage Caller : Type.
Variable backend : ManageContextRequest.t -> Settlement ApiMessage.
Variable convert : ApiMessage -> bool -> bool -> Completion Message.

(** The awaited promise of a parked body settles with [outcome] at a time
    when the runtime has become [later]: the continuation runs on the
    runtime it finds, with the variables it closed over. *)
Definition settle {A : Type} (s : Suspension ApiMessage Caller A)
    (outcome : Settlement ApiMessage) (later : Runtime Caller)
  : Completion A * Runtime Caller :=
  match s with
  | Settled c r => (c, r)
  | Pending _ k _ => run backend (k outcome) later
  end.

Variable H : list Message.
Variable setM : list Message -> Caller -> Caller.
Variable app : Message -> Caller -> Caller.
Variable isManual : bool.
Variables r later : Runtime Caller.

Let marker : Message :=
  inFlightMarker isManual (clock r (ticks r)) (clock r (S (ticks r))).
Let parked : Suspension ApiMessage Caller unit :=
  start (performCompaction convert H setM app isManual) r.

Lemma run_is_settle_at_once :
  run backend (performCompaction convert H setM app isManual) r
  = settle parked (backend (summarizeRequest H)) (runtime_of parked).
Proof. rewrite run_is_resume_start. reflexivity. Qed.

Lemma settle_summarized resp summaryMessage rest :
  Array_map (fun apiMessage => convert apiMessage false true)
            (ContextManageResponse.messages resp)
  = Normal (summaryMessage :: rest) ->
  usableSummary (summaryMessage :: rest) = Some summaryMessage ->
  settle parked (Resolves resp) later
  = (Normal tt,
     mkRuntime false (compactionError later)
               (setM [completedMarkerOf marker; summaryMessage] (caller later))
               (clock later) (ticks later) (requests later)
               (timers later ++ [(100, app summaryMessage)])
               (console later)).
Proof.
  intros Ec U. unfold parked, performCompaction. cbn.
  rewrite Ec. cbn.
  simpl in U. destruct (content summaryMessage) as [ | [t | m | o] more];
    try discriminate U.
  reflexivity.
Qed.

Lemma settle_rejected (err : JsThrown) :
  settle parked (Rejects err) later
  = (Normal tt,
     mkRuntime false (Some (errorText err))
               (setM (H ++ [errorMarkerAt (clock later (ticks later))
                                          (clock later (S (ticks later)))])
                     (caller later))
               (clock later) (S (S (ticks later))) (requests later)
               (timers later)
               (console later ++ [("Error during compaction:", err)])).
Proof. reflexivity. Qed.

End Resumption.

(** ** The three ways a compaction ends *)

Section Outcomes.

Variables ApiMessage Caller : Type.
Variable backend : ManageContextRequest.t -> Settlement ApiMessage.
Variable convert : ApiMessage -> bool -> bool -> Completion Message.
Variable H : list Message.
Variable setM : list Message -> Caller -> Caller.
Variable app : Message -> Caller -> Caller.
Variable isManual : bool.
Variable r : Runtime Caller.

Let marker : Message :=
  inFlightMarker isManual (clock r (ticks r)) (clock r (S (ticks r))).

(** The catch clause ran with [err]. *)
Definition afterFailure (err : JsThrown) : Runtime Caller :=
  mkRuntime false (Some (errorText err))
            (setM (H ++ [errorMarkerAt (clock r (S (S (ticks r))))
                                       (clock r (S (S (S (ticks r)))))])
                  (setM (H ++ [marker]) (caller r)))
            (clock r) (S (S (S (S (ticks r)))))
            (requests r ++ [summarizeRequest H]) (timers r)
            (console r ++ [("Error during compaction:", err)]).

(** The guard passed on [summaryMessage]. *)
Definition afterSummary (summaryMessage : Message) : Runtime Caller :=
  mkRuntime false None
            (setM [completedMarkerOf marker; summaryMessage]
                  (setM (H ++ [marker]) (caller r)))
            (clock r) (S (S (ticks r)))
            (requests r ++ [summarizeRequest H])
            (timers r ++ [(100, app summaryMessage)])
            (console r).

(** The guard did not pass. *)
Definition afterNothing : Runtime Caller :=
  mkRuntime false None (setM (H ++ [marker]) (caller r))
            (clock r) (S (S (ticks r)))
            (requests r ++ [summarizeRequest H]) (timers r) (console r).

(** What the settlement of the backend promise leads to. *)
Definition verdict (s : Settlement ApiMessage) : Runtime Caller :=
  match s with
  | Rejects err => afterFailure err
  | Resolves resp =>
      match Array_map (fun apiMessage => convert apiMessage false true)
                      (ContextManageResponse.messages resp) with
      | Abrupt err => afterFailure err
      | Normal convertedMessages =>
          match usableSummary convertedMessages with
          | Some summaryMessage => afterSummary summaryMessage
          | None => afterNothing
          end
      end
  end.

Lemma run_verdict :
  run backend (performCompaction convert H setM app isManual) r
  = (Normal tt, verdict (backend (summarizeRequest H))).
Proof.
  unfold verdict.
  destruct (backend (summarizeRequest H)) as [resp | err] eqn:E.
  - destruct (Array_map _ (ContextManageResponse.messages resp))
      as [cs | err] eqn:Ec.
    + destruct (usableSummary cs) as [sm | ] eqn:U.
      * destruct (@usableSummary_head _ _ U) as (rest & t & more & -> & _).
        exact (@run_summarized _ _ backend convert H setM app isManual r
                 resp sm rest E Ec U).
      * exact (@run_unusable _ _ backend convert H setM app isManual r
                 resp cs E Ec U).
    + exact (@run_conversion_throws _ _ backend convert H setM app isManual r
               resp err E Ec).
  - exact (@run_rejected _ _ backend convert H setM app isManual r err E).
Qed.

End Outcomes.

Lemma Array_map_stops (A B : Type) (f : A -> Completion B)
    (pre : list A) (bad : A) (post : list A) (ys : list B) (err : JsThrown) :
  Array_map f pre = Normal ys ->
  f bad = Abrupt err ->
  Array_map f (pre ++ bad :: post) = Abrupt err.
Proof.
  revert ys. induction pre as [ | a pre IH]; intros ys P B0; simpl in *.
  - now rewrite B0.
  - destruct (f a) as [y | e]; [ | discriminate P ].
    destruct (Array_map f pre) as [ys' | e] eqn:E; [ | discriminate P ].
    now rewrite (IH ys' eq_refl B0).
Qed.

(** ** What a caller observes beyond the final history *)

Section Observations.

Variable ApiMessage : Type.
Variable backend : ManageContextRequest.t -> Settlement ApiMessage.
Variable convert : ApiMessage -> bool -> bool -> Completion Message.

(** X4: rendered with [CompactionMarker], the history's marker shows,
    while the backend is awaited, the text of the trigger kind; after a
    rejected call, as last entry, 'Compaction failed. Please try again or
    start a new session.'; after a usable summary, as first entry,
    'Conversation compacted. Summary prepared to continue.'.  The default
    text is never what a marker of the coordinator renders as. *)
Theorem history_renders_compaction_status
    (H : list Message) (resume : Message -> ChatState -> ChatState)
    (isManual : bool) (r : Runtime ChatState) :
  let p := performCompaction convert H setMessages resume isManual in
  let final := snd (run backend p r) in
  (exists inFlight : Message,
      history (caller (runtime_of (start p r))) = (H ++ [inFlight])%list /\
      textContent (CompactionMarker inFlight)
      = if isManual
        then "Compacting conversation as requested..."
        else "Context limit reached. Compacting conversation...") /\
  (forall err : JsThrown,
      backend (summarizeRequest H) = Rejects err ->
      exists errorMarker : Message,
        history (caller final) = (H ++ [errorMarker])%list /\
        textContent (CompactionMarker errorMarker)
        = "Compaction failed. Please try again or start a new session.") /\
  (forall resp summaryMessage rest text more,
      backend (summarizeRequest H) = Resolves resp ->
      Array_map (fun apiMessage => convert apiMessage false true)
                (ContextManageResponse.messages resp)
      = Normal (summaryMessage :: rest) ->
      content summaryMessage = TextContent text :: more ->
      exists completedMarker : Message,
        history (caller final) = [completedMarker; summaryMessage] /\
        textContent (CompactionMarker completedMarker)
        = "Conversation compacted. Summary prepared to continue.").
Proof.
  intros p final. subst p final. split; [ | split ].
  - eexists. split; [ reflexivity | ].
    rewrite textContent_CompactionMarker. now destruct isManual.
  - intros err E.
    rewrite (@run_rejected _ _ backend convert H setMessages resume isManual r
               err E).
    eexists. split; [ reflexivity | ].
    now rewrite textContent_CompactionMarker.
  - intros resp sm rest text more E Ec Et.
    assert (U : usableSummary (sm :: rest) = Some sm).
    { simpl. now rewrite Et. }
    rewrite (@run_summarized _ _ backend convert H setMessages resume isManual
               r resp sm rest E Ec U).
    eexists. split; [ reflexivity | ].
    now rewrite textContent_CompactionMarker.
Qed.

(** X5: the continuation after the await works from what it closed over,
    not from the history it finds.  If, while the backend was awaited,
    the caller's history and the provider's state changed in any way, a
    usable summary still sets the history to exactly the completed marker
    (with the identifier made at the start) and the summary: messages
    added meanwhile are dropped.  [compactionError] is left as found, and
    [append] is only scheduled.  Settling at once is what [run] does. *)
Theorem messages_added_while_awaiting_are_dropped
    (H : list Message) (isManual : bool) (r later : Runtime ChatState)
    (resp : ContextManageResponse.t ApiMessage)
    (summaryMessage : Message) (rest : list Message)
    (text : string) (more : list MessageContent) :
  Array_map (fun apiMessage => convert apiMessage false true)
            (ContextManageResponse.messages resp)
  = Normal (summaryMessage :: rest) ->
  content summaryMessage = TextContent text :: more ->
  let p := performCompaction convert H setMessages append isManual in
  let final := snd (settle backend (start p r) (Resolves resp) later) in
  history (caller final)
  = [completedMarkerOf
       (inFlightMarker isManual (clock r (ticks r)) (clock r (S (ticks r))));
     summaryMessage] /\
  submitted (caller final) = submitted (caller later) /\
  timers final = (timers later ++ [(100, append summaryMessage)])%list /\
  compactionError final = compactionError later /\
  isCompacting final = false /\
  run backend p r
  = settle backend (start p r) (backend (summarizeRequest H))
           (runtime_of (start p r)).
Proof.
  intros Ec Et p final. subst p final.
  assert (U : usableSummary (summaryMessage :: rest) = Some summaryMessage).
  { simpl. now rewrite Et. }
  rewrite (@settle_summarized _ _ backend convert H setMessages append isManual
             r later resp summaryMessage rest Ec U).
  repeat split.
Qed.

(** X6: likewise when the awaited call rejects: whatever the history
    has become meanwhile, it is set to the messages the trigger was given
    plus an error marker stamped with the clock at the time of the
    rejection; nothing is scheduled and [compactionError] is the error's
    text. *)
Theorem rejection_resets_history_to_call_time_messages
    (H : list Message) (isManual : bool) (r later : Runtime ChatState)
    (err : JsThrown) :
  let p := performCompaction convert H setMessages append isManual in
  let final := snd (settle backend (start p r) (Rejects err) later) in
  history (caller final)
  = (H ++ [errorMarkerAt (clock later (ticks later))
                         (clock later (S (ticks later)))])%list /\
  submitted (caller final) = submitted (caller later) /\
  timers final = timers later /\
  compactionError final = Some (errorText err) /\
  isCompacting final = false /\
  fst (settle backend (start p r) (Rejects err) later) = Normal tt.
Proof.
  intros p final. subst p final.
  rewrite (@settle_rejected _ _ backend convert H setMessages append isManual
             r later err).
  repeat split.
Qed.

End Observations.

(** ** Overlap, retries and the two triggers *)

Section Composition.

Variable ApiMessage : Type.
Variable backend : ManageContextRequest.t -> Settlement ApiMessage.
Variable convert : ApiMessage -> bool -> bool -> Completion Message.


(** X8: a manual compaction never resumes the conversation.  The
    callback [handleManualCompaction] passes as [append] does nothing, so
    whatever the backend answers, once its timer has fired the caller's
    state is what it was when the promise resolved, and nothing was ever
    handed to the caller's own resume capability. *)
Theorem manual_compaction_never_resumes
    (H : list Message) (r : Runtime ChatState) :
  timers r = [] ->
  let final :=
    snd (run backend (handleManualCompaction convert H setMessages) r) in
  caller (fire_timers final) = caller final /\
  submitted (caller (fire_timers final)) = submitted (caller r).
Proof.
  intros T final. subst final.
  unfold handleManualCompaction. rewrite run_bind, run_verdict. simpl.
  unfold verdict.
  destruct (backend (summarizeRequest H)) as [resp | err].
  - destruct (Array_map _ (ContextManageResponse.messages resp)) as [cs | err].
    + destruct (usableSummary cs) as [sm | ];
        simpl; rewrite T; simpl; split; reflexivity.
    + simpl. rewrite T. simpl. split; reflexivity.
  - simpl. rewrite T. simpl. split; reflexivity.
Qed.

(** X9: a response whose conversion throws is handled exactly as a
    rejected call: the promise resolves and the runtime ends in the very
    state it would have reached had the backend rejected with the thrown
    value. *)
Theorem throwing_conversion_is_a_rejection
    (Caller : Type) (H : list Message)
    (setM : list Message -> Caller -> Caller)
    (app : Message -> Caller -> Caller) (isManual : bool)
    (r : Runtime Caller)
    (rejecting : ManageContextRequest.t -> Settlement ApiMessage)
    (resp : ContextManageResponse.t ApiMessage) (err : JsThrown) :
  backend (summarizeRequest H) = Resolves resp ->
  Array_map (fun apiMessage => convert apiMessage false true)
            (ContextManageResponse.messages resp) = Abrupt err ->
  rejecting (summarizeRequest H) = Rejects err ->
  run backend (performCompaction convert H setM app isManual) r
  = run rejecting (performCompaction convert H setM app isManual) r.
Proof.
  intros E Ec R.
  rewrite (@run_conversion_throws _ _ backend convert H setM app isManual r
             resp err E Ec).
  now rewrite (@run_rejected _ _ rejecting convert H setM app isManual r err R).
Qed.

(** X10: only the first converted message is used, yet every message of
    the response is converted first.  If the conversion of a later
    message throws, the compaction fails although the messages before it,
    a usable summary included, converted well: the history is the
    call-time messages plus an error marker, [compactionError] is the
    text of what was thrown, and nothing is scheduled. *)
Theorem later_message_failure_fails_compaction
    (H : list Message) (isManual : bool) (r : Runtime ChatState)
    (resp : ContextManageResponse.t ApiMessage)
    (pre : list ApiMessage) (bad : ApiMessage) (post : list ApiMessage)
    (convertedPre : list Message) (err : JsThrown) :
  backend (summarizeRequest H) = Resolves resp ->
  ContextManageResponse.messages resp = (pre ++ bad :: post)%list ->
  Array_map (fun apiMessage => convert apiMessage false true) pre
  = Normal convertedPre ->
  convert bad false true = Abrupt err ->
  let final :=
    snd (run backend
             (performCompaction convert H setMessages append isManual) r) in
  history (caller final)
  = (H ++ [errorMarkerAt (clock r (S (S (ticks r))))
                         (clock r (S (S (S (ticks r)))))])%list /\
  compactionError final = Some (errorText err) /\
  timers final = timers r /\
  isCompacting final = false.
Proof.
  intros E M P B final. subst final.
  assert (Ec : Array_map (fun apiMessage => convert apiMessage false true)
                         (ContextManageResponse.messages resp) = Abrupt err).
  { rewrite M. exact (Array_map_stops _ pre bad post P B). }
  rewrite (@run_conversion_throws _ _ backend convert H setMessages append
             isManual r resp err E Ec).
  repeat split.
Qed.

(** X11: when the conversion honours the two flags it is called with,
    after a successful compaction the summary is the only entry of the
    history marked for the model and the completed marker the only entry
    marked for display. *)
Theorem only_summary_is_sent_to_model
    (H : list Message) (resume : Message -> ChatState -> ChatState)
    (isManual : bool) (r : Runtime ChatState)
    (resp : ContextManageResponse.t ApiMessage)
    (summaryMessage : Message) (rest : list Message)
    (text : string) (more : list MessageContent) :
  (forall apiMessage d s m,
      convert apiMessage d s = Normal m -> display m = d /\ sendToLLM m = s) ->
  backend (summarizeRequest H) = Resolves resp ->
  Array_map (fun apiMessage => convert apiMessage false true)
            (ContextManageResponse.messages resp)
  = Normal (summaryMessage :: rest) ->
  content summaryMessage = TextContent text :: more ->
  let final :=
    snd (run backend
             (performCompaction convert H setMessages resume isManual) r) in
  filter sendToLLM (history (caller final)) = [summaryMessage] /\
  filter display (history (caller final))
  = [completedMarkerOf
       (inFlightMarker isManual (clock r (ticks r)) (clock r (S (ticks r))))].
Proof.
  intros Flags E Ec Et final. subst final.
  assert (U : usableSummary (summaryMessage :: rest) = Some summaryMessage).
  { simpl. now rewrite Et. }
  rewrite (@run_summarized _ _ backend convert H setMessages resume isManual
             r resp summaryMessage rest E Ec U).
  destruct (ContextManageResponse.messages resp) as [ | a0 others] eqn:M;
    [ discriminate Ec | ].
  simpl in Ec.
  destruct (convert a0 false true) as [m0 | e0] eqn:C0; [ | discriminate Ec ].
  destruct (Array_map _ others) as [ms | e1]; [ | discriminate Ec ].
  injection Ec as -> _.
  destruct (Flags a0 false true summaryMessage C0) as [D S].
  simpl. rewrite D, S. split; reflexivity.
Qed.


(** X13: the provider's state through a compaction.  Starting one sets
    [isCompacting] and clears whatever error an earlier attempt left;
    when the promise resolves [isCompacting] is false again, and
    [compactionError] is set exactly when the catch clause ran: to the
    [message] of the [Error] the call rejected with or the conversion
    threw, or to 'Unknown error during compaction' for any other thrown
    value. *)
Theorem compaction_state_lifecycle
    (Caller : Type) (H : list Message)
    (setM : list Message -> Caller -> Caller)
    (app : Message -> Caller -> Caller) (isManual : bool)
    (r : Runtime Caller) :
  let p := performCompaction convert H setM app isManual in
  let final := snd (run backend p r) in
  isCompacting (runtime_of (start p r)) = true /\
  compactionError (runtime_of (start p r)) = None /\
  isCompacting final = false /\
  compactionError final
  = match backend (summarizeRequest H) with
    | Rejects (ErrorObject message) => Some message
    | Rejects (OtherThrown _) => Some "Unknown error during compaction"
    | Resolves resp =>
        match Array_map (fun apiMessage => convert apiMessage false true)
                        (ContextManageResponse.messages resp) with
        | Abrupt (ErrorObject message) => Some message
        | Abrupt (OtherThrown _) => Some "Unknown error during compaction"
        | Normal _ => None
        end
    end.
Proof.
  intros p final. subst p final.
  split; [ reflexivity | ]. split; [ reflexivity | ].
  rewrite run_verdict. simpl. unfold verdict.
  destruct (backend (summarizeRequest H)) as [resp | [m | d]].
  - destruct (Array_map _ (ContextManageResponse.messages resp))
      as [cs | [m | d]].
    + destruct (usableSummary cs); split; reflexivity.
    + split; reflexivity.
    + split; reflexivity.
  - split; reflexivity.
  - split; reflexivity.
Qed.

End Composition.

Section Retry.

Variable ApiMessage : Type.
Variable backend : ManageContextRequest.t -> Settlement ApiMessage.
Variable convert : ApiMessage -> bool -> bool -> Completion Message.

(** X14: retrying after a failure, with the history the failure left.
    The messages are sent as they are, so the first attempt's error
    marker is part of the second request although it is not marked for
    the model; and when the second call rejects too, both error markers
    stay in the history, the second stamped with the later clock
    readings. *)
Theorem retry_after_failure_keeps_error_markers
    (H : list Message) (manual1 manual2 : bool) (r : Runtime ChatState)
    (err1 err2 : JsThrown) :
  let firstError :=
    errorMarkerAt (clock r (2 + ticks r)%nat) (clock r (3 + ticks r)%nat) in
  let secondError :=
    errorMarkerAt (clock r (6 + ticks r)%nat) (clock r (7 + ticks r)%nat) in
  backend (summarizeRequest H) = Rejects err1 ->
  backend (summarizeRequest (H ++ [firstError])) = Rejects err2 ->
  let afterFirst :=
    snd (run backend
             (performCompaction convert H setMessages append manual1) r) in
  let afterSecond :=
    snd (run backend
             (performCompaction convert (history (caller afterFirst))
                                setMessages append manual2)
             afterFirst) in
  history (caller afterFirst) = (H ++ [firstError])%list /\
  sendToLLM firstError = false /\
  requests afterSecond
  = (requests r
     ++ [summarizeRequest H; summarizeRequest (H ++ [firstError])])%list /\
  history (caller afterSecond) = (H ++ [firstError; secondError])%list /\
  compactionError afterSecond = Some (errorText err2) /\
  submitted (caller afterSecond) = submitted (caller r).
Proof.
  intros firstError secondError E1 E2 afterFirst afterSecond.
  assert (R1 : afterFirst
               = afterFailure H setMessages manual1 r err1).
  { unfold afterFirst.
    now rewrite (@run_rejected _ _ backend convert H setMessages append
                   manual1 r err1 E1). }
  assert (H1 : history (caller afterFirst) = (H ++ [firstError])%list).
  { rewrite R1. reflexivity. }
  split; [ exact H1 | ]. split; [ reflexivity | ].
  unfold afterSecond. rewrite H1.
  rewrite (@run_rejected _ _ backend convert (H ++ [firstError]) setMessages
             append manual2 afterFirst err2 E2).
  rewrite R1. simpl.
  repeat split; now rewrite <- app_assoc.
Qed.

End Retry.

(** ** More concrete conversations *)

Module Faulty.
Import Scenario.

(** A conversion that rejects provider messages without content. *)
Definition convert (apiMessage : ApiMessage) (display sendToLLM : bool)
  : Completion Message :=
  match snd apiMessage with
  | [] => Abrupt (ErrorObject "message without content")
  | _ => Scenario.convert apiMessage display sendToLLM
  end.

Definition twoMessages : ContextManageResponse.t ApiMessage :=
  ContextManageResponse.mk
    [(assistant, [TextContent "Summary of conversation."]); (assistant, [])].

Definition answeringTwo (_ : ManageContextRequest.t) : Settlement ApiMessage :=
  Resolves twoMessages.

Definition rejectingWith (err : JsThrown) (_ : ManageContextRequest.t)
  : Settlement ApiMessage :=
  Rejects err.

(** The runtime a compaction finds on settling when, meanwhile, a message
    was added to the history and an error was recorded. *)
Definition movedOn : Runtime ChatState :=
  mkRuntime true (Some "earlier")
            (mkChat [hi; inFlight; mkMessage "2" user 1700000005
                                             [TextContent "one more thing"]
                                             true true] [])
            (fun n => 1700000000000 + Z.of_nat n) 2
            [summarizeRequest [hi]] [] [].
End Faulty.

Lemma history_renders_compaction_status_witness :
  (exists errorMarker : Message,
      history (caller (snd (run Scenario.failing Run.manual
                                (Scenario.idle [Scenario.hi]))))
      = [Scenario.hi; errorMarker] /\
      textContent (CompactionMarker errorMarker)
      = "Compaction failed. Please try again or start a new session.") /\
  (exists completedMarker : Message,
      history (caller (snd (run Scenario.summarizing Run.manual
                                (Scenario.idle [Scenario.hi]))))
      = [completedMarker; Scenario.summary] /\
      textContent (CompactionMarker completedMarker)
      = "Conversation compacted. Summary prepared to continue.").
Proof.
  split.
  - destruct (@history_renders_compaction_status
                Scenario.ApiMessage Scenario.failing Scenario.convert
                [Scenario.hi] append true (Scenario.idle [Scenario.hi]))
      as (_ & Failure & _).
    exact (Failure (ErrorObject "network error") eq_refl).
  - destruct (@history_renders_compaction_status
                Scenario.ApiMessage Scenario.summarizing Scenario.convert
                [Scenario.hi] append true (Scenario.idle [Scenario.hi]))
      as (_ & _ & Success).
    exact (Success Run.response Scenario.summary []
                   "Summary of conversation." [] eq_refl eq_refl eq_refl).
Defined.

Lemma messages_added_while_awaiting_are_dropped_witness :
  List.length (history (caller Faulty.movedOn)) = 3%nat /\
  List.length
    (history
       (caller
          (snd (settle Scenario.summarizing
                       (start Run.manual (Scenario.idle [Scenario.hi]))
                       (Resolves Run.response) Faulty.movedOn))))
  = 2%nat.
Proof.
  split; [ reflexivity | ].
  destruct (@messages_added_while_awaiting_are_dropped
              Scenario.ApiMessage Scenario.summarizing Scenario.convert
              [Scenario.hi] true (Scenario.idle [Scenario.hi]) Faulty.movedOn
              Run.response Scenario.summary [] "Summary of conversation." []
              eq_refl eq_refl)
    as (Hist & _).
  exact (f_equal (@List.length Message) Hist).
Defined.


Lemma manual_compaction_never_resumes_witness :
  timers (Scenario.idle [Scenario.hi]) = [] /\
  submitted
    (caller
       (fire_timers
          (snd (run Scenario.summarizing
                    (handleManualCompaction Scenario.convert [Scenario.hi]
                                            setMessages)
                    (Scenario.idle [Scenario.hi])))))
  = [].
Proof.
  split; [ reflexivity | ].
  destruct (@manual_compaction_never_resumes
              Scenario.ApiMessage Scenario.summarizing Scenario.convert
              [Scenario.hi] (Scenario.idle [Scenario.hi]) eq_refl)
    as (_ & Nothing).
  exact Nothing.
Defined.

Lemma throwing_conversion_is_a_rejection_witness :
  Faulty.convert (assistant, []) false true
  = Abrupt (ErrorObject "message without content") /\
  run Faulty.answeringTwo
      (performCompaction Faulty.convert [Scenario.hi] setMessages append false)
      (Scenario.idle [Scenario.hi])
  = run (Faulty.rejectingWith (ErrorObject "message without content"))
        (performCompaction Faulty.convert [Scenario.hi] setMessages append false)
        (Scenario.idle [Scenario.hi]).
Proof.
  split; [ reflexivity | ].
  exact (@throwing_conversion_is_a_rejection
           Scenario.ApiMessage Faulty.answeringTwo Faulty.convert
           ChatState [Scenario.hi] setMessages append false
           (Scenario.idle [Scenario.hi])
           (Faulty.rejectingWith (ErrorObject "message without content"))
           Faulty.twoMessages (ErrorObject "message without content")
           eq_refl eq_refl eq_refl).
Defined.

Lemma later_message_failure_fails_compaction_witness :
  usableSummary [Scenario.summary] = Some Scenario.summary /\
  compactionError
    (snd (run Faulty.answeringTwo
              (performCompaction Faulty.convert [Scenario.hi] setMessages
                                 append false)
              (Scenario.idle [Scenario.hi])))
  = Some "message without content".
Proof.
  split; [ reflexivity | ].
  destruct (@later_message_failure_fails_compaction
              Scenario.ApiMessage Faulty.answeringTwo Faulty.convert
              [Scenario.hi] false (Scenario.idle [Scenario.hi])
              Faulty.twoMessages
              [(assistant, [TextContent "Summary of conversation."])]
              (assistant, []) [] [Scenario.summary]
              (ErrorObject "message without content")
              eq_refl eq_refl eq_refl eq_refl)
    as (_ & Err & _).
  exact Err.
Defined.

Lemma Scenario_convert_honours_flags
    (apiMessage : Scenario.ApiMessage) (d s : bool) (m : Message) :
  Scenario.convert apiMessage d s = Normal m -> display m = d /\ sendToLLM m = s.
Proof.
  unfold Scenario.convert. intros Q. injection Q as <-. split; reflexivity.
Defined.

Lemma only_summary_is_sent_to_model_witness :
  filter sendToLLM
         (history (caller (snd (run Scenario.summarizing Run.automatic
                                    (Scenario.idle [Scenario.hi])))))
  = [Scenario.summary].
Proof.
  destruct (@only_summary_is_sent_to_model
              Scenario.ApiMessage Scenario.summarizing Scenario.convert
              [Scenario.hi] append false (Scenario.idle [Scenario.hi])
              Run.response Scenario.summary [] "Summary of conversation." []
              Scenario_convert_honours_flags eq_refl eq_refl eq_refl)
    as (Sent & _).
  exact Sent.
Defined.



Lemma retry_after_failure_keeps_error_markers_witness :
  List.length
    (history
       (caller
          (snd (run Scenario.failing
                    (performCompaction
                       Scenario.convert
                       (history
                          (caller
                             (snd (run Scenario.failing Run.manual
                                       (Scenario.idle [Scenario.hi])))))
                       setMessages append false)
                    (snd (run Scenario.failing Run.manual
                              (Scenario.idle [Scenario.hi])))))))
  = 3%nat.
Proof.
  destruct (@retry_after_failure_keeps_error_markers
              Scenario.ApiMessage Scenario.failing Scenario.convert
              [Scenario.hi] true false (Scenario.idle [Scenario.hi])
              (ErrorObject "network error") (ErrorObject "network error")
              eq_refl eq_refl)
    as (_ & _ & _ & Hist & _).
  exact (f_equal (@List.length Message) Hist).
Defined.
